(** * Google Keep reader: a shallow embedding of [llama_hub/google_keep/base.py]

    The reader is one class, [GoogleKeepReader], with three methods:
    [load_data], [_load_note] and [_get_credentials].  Everything it does
    goes through its collaborators (the file system, the service-account
    loader, the discovery client and the remote endpoint), so the embedding
    takes them as a [World] and records every call to one of them in a trace.
    Python exceptions are an error result that short-circuits the rest of the
    method, as [raise] does. *)

From Stdlib Require Import ZArith Ascii String.
From stdpp Require Import gmap strings list fin_maps.

Local Open Scope string_scope.
Set Warnings "-register-all".
Set Default Proof Using "Type".

(** ** Python values and exceptions *)

Module Py.

(** The values [execute()] can hand back: parsed JSON.  The reader only
    ever asks a value for [.get] or adds it to a [str], so a number is kept
    for what it is and never computed with. *)
Inductive pyval : Type :=
| PNone
| PBool (b : bool)
| PInt (z : Z)
| PFloat (mantissa exponent : Z)
| PStr (s : string)
| PList (l : list pyval)
| PDict (d : gmap string pyval).

(** The exceptions that can leave the reader.  [ValueError] and
    [RuntimeError] carry the message the source gives them; [TypeError]
    and [AttributeError] are raised by the interpreter; [HttpError] and
    [OtherError] are whatever a collaborator raises. *)
Inductive exn : Type :=
| ValueError (msg : string)
| RuntimeError (msg : string)
| TypeError
| AttributeError
| HttpError (status : Z)
| OtherError (name : string).

Inductive result (A : Type) : Type :=
| Ok (a : A)
| Err (e : exn).
Arguments Ok {A} a.
Arguments Err {A} e.

Definition is_ok {A} (r : result A) : bool :=
  match r with Ok _ => true | Err _ => false end.

(** [v.get(key)]: only a dict has the method; a missing key gives [None]. *)
Definition py_get (v : pyval) (key : string) : result pyval :=
  match v with
  | PDict d => Ok (default PNone (d !! key))
  | _ => Err AttributeError
  end.

(** [s + v] for a [str] on the left: defined on a [str] only. *)
Definition str_add (s : string) (v : pyval) : result string :=
  match v with
  | PStr t => Ok (s +:+ t)
  | _ => Err TypeError
  end.

(** The one-character strings that a Rocq literal cannot spell. *)
Definition LF : ascii := "010"%char.
Definition nl : string := String LF "".
Definition dq : string := String "034"%char "".

End Py.
Import Py.

(** ** Effects: a trace of collaborator calls and an error result *)

Module Eff.

Inductive event : Type :=
| EvPathExists (path : string)
| EvFromServiceAccountFile (path : string) (scopes : list string)
| EvDiscoveryBuild (name version : string)
| EvNotesGet (name : string).

(** A computation: the calls it made, in order, and how it ended. *)
Definition M (A : Type) : Type := (list event * result A)%type.

Definition ret {A} (a : A) : M A := ([], Ok a).
Definition raise {A} (e : exn) : M A := ([], Err e).
Definition bind {A B} (m : M A) (f : A → M B) : M B :=
  match m with
  | (t1, Ok a) => let '(t2, r) := f a in ((t1 ++ t2)%list, r)
  | (t1, Err e) => (t1, Err e)
  end.
Definition call {A} (ev : event) (r : result A) : M A := ([ev], r).
Definition lift {A} (r : result A) : M A := ([], r).

Definition trace {A} (m : M A) : list event := m.1.
Definition outcome {A} (m : M A) : result A := m.2.

(** A call that may leave the machine. *)
Definition is_remote (ev : event) : bool :=
  match ev with
  | EvDiscoveryBuild _ _ | EvNotesGet _ => true
  | EvPathExists _ | EvFromServiceAccountFile _ _ => false
  end.

Definition is_credential_load (ev : event) : bool :=
  match ev with
  | EvFromServiceAccountFile _ _ => true
  | _ => false
  end.

Definition remote_calls (t : list event) : list event :=
  List.filter is_remote t.
Definition credential_loads (t : list event) : list event :=
  List.filter is_credential_load t.

End Eff.
Import Eff.

(** [M] is a monad in stdpp's sense, which gives the reader its
    [x ← m; k] notation. *)
#[global] Instance M_ret : MRet M := @ret.
#[global] Instance M_bind : MBind M := λ A B f m, bind m f.

(** ** The collaborators *)

Record Credentials : Type := { cred_path : string; cred_scopes : list string }.

Record Service : Type :=
  { svc_name : string; svc_version : string; svc_credentials : Credentials }.

Record World : Type := {
  (** [os.path.exists] *)
  path_exists : string → bool;
  (** [service_account.Credentials.from_service_account_file] *)
  from_service_account_file : string → list string → result Credentials;
  (** [discovery.build] *)
  discovery_build : string → string → Credentials → result Service;
  (** [service.notes().get(name=...).execute()] *)
  notes_get_execute : Service → string → result pyval
}.

Record Document : Type := { text : string; extra_info : gmap string string }.

(** ** The reader *)

Definition SCOPES : list string :=
  ["https://www.googleapis.com/auth/keep.readonly"].

Definition _get_credentials (w : World) : M Credentials :=
  present ← call (EvPathExists "service_account.json")
                  (Ok (path_exists w "service_account.json"));
  if present : bool then
    creds ← call (EvFromServiceAccountFile "service_account.json" SCOPES)
                  (from_service_account_file w "service_account.json" SCOPES);
    ret creds
  else raise (RuntimeError "Need to authenticate with service account.").

Definition _load_note (w : World) (note_id : string) : M string :=
  credentials ← _get_credentials w;
  notes_service ← call (EvDiscoveryBuild "keep" "v1")
                        (discovery_build w "keep" "v1" credentials);
  note ← call (EvNotesGet ("notes/" +:+ note_id))
               (notes_get_execute w notes_service ("notes/" +:+ note_id));
  title ← lift (py_get note "title");
  titled ← lift (str_add "Title: " title);
  let note_content := titled +:+ nl in
  body ← lift (py_get note "body");
  body_text ← lift (py_get body "text");
  bodied ← lift (str_add "Body: " body_text);
  let note_content := note_content +:+ bodied in
  ret note_content.

(** The [for] loop of [load_data]; [results] is the list being appended to. *)
Fixpoint load_data_loop (w : World) (results : list Document)
    (note_ids : list string) : M (list Document) :=
  match note_ids with
  | [] => ret results
  | note_id :: rest =>
      note ← _load_note w note_id;
      load_data_loop w
        (results ++ [{| text := note; extra_info := {["note_id" := note_id]} |}])%list
        rest
  end.

(** [note_ids] is [None] when the caller passed Python's [None]. *)
Definition load_data (w : World) (note_ids : option (list string))
    : M (list Document) :=
  match note_ids with
  | None =>
      raise (ValueError ("Must specify a " +:+ dq +:+ "note_ids" +:+ dq +:+
                         " in `load_kwargs`."))
  | Some ids => load_data_loop w [] ids
  end.

(** ** What the claims speak about *)

(** The reader reaches the service and the request for [note_id] ends in [r]:
    the credential file is there and loads, the client builds, and
    [execute()] gives [r]. *)
Definition responds (w : World) (note_id : string) (r : result pyval) : Prop :=
  ∃ creds svc,
    path_exists w "service_account.json" = true ∧
    from_service_account_file w "service_account.json" SCOPES = Ok creds ∧
    discovery_build w "keep" "v1" creds = Ok svc ∧
    notes_get_execute w svc ("notes/" +:+ note_id) = r.

(** The calls one complete fetch makes. *)
Definition fetch_events (note_id : string) : list event :=
  [EvPathExists "service_account.json";
   EvFromServiceAccountFile "service_account.json" SCOPES;
   EvDiscoveryBuild "keep" "v1";
   EvNotesGet ("notes/" +:+ note_id)].

(** Lines 63 to 66 of the source as a function of the response alone. *)
Definition note_content_of (note : pyval) : result string :=
  match py_get note "title" with
  | Err e => Err e
  | Ok title =>
      match str_add "Title: " title with
      | Err e => Err e
      | Ok titled =>
          match py_get note "body" with
          | Err e => Err e
          | Ok body =>
              match py_get body "text" with
              | Err e => Err e
              | Ok body_text =>
                  match str_add "Body: " body_text with
                  | Err e => Err e
                  | Ok bodied => Ok ((titled +:+ nl) +:+ bodied)
                  end
              end
          end
      end
  end.

Definition fetch_ok (w : World) (note_id : string) : Prop :=
  is_ok (outcome (_load_note w note_id)) = true.

(** The record [load_data] builds for [note_id]. *)
Definition record_of (w : World) (note_id : string) (doc : Document) : Prop :=
  outcome (_load_note w note_id) = Ok (text doc) ∧
  extra_info doc = {["note_id" := note_id]}.

(** The body text of a response that has one: [note["body"]["text"]] is a
    [str]. *)
Definition plain_text_body (note : pyval) : option string :=
  match note with
  | PDict d =>
      match d !! "body" with
      | Some (PDict b) =>
          match b !! "text" with
          | Some (PStr B) => Some B
          | _ => None
          end
      | _ => None
      end
  | _ => None
  end.

(** The spec's [MalformedNoteError]: what the interpreter raises on a
    response of the wrong shape. *)
Definition is_malformed_note_error (e : exn) : bool :=
  match e with
  | TypeError | AttributeError => true
  | _ => false
  end.

(** Lines of a text, as [text.split("\n")] gives them. *)
Fixpoint split_lines (s : string) : list string :=
  match s with
  | "" => [""]
  | String c s' =>
      if Ascii.eqb c LF then "" :: split_lines s'
      else match split_lines s' with
           | [] => [String c ""]
           | l :: ls => String c l :: ls
           end
  end.

Fixpoint has_newline (s : string) : bool :=
  match s with
  | "" => false
  | String c s' => Ascii.eqb c LF || has_newline s'
  end.

(** [p] occurs somewhere in [s]. *)
Definition occurs (p s : string) : bool :=
  match String.index 0 p s with Some _ => true | None => false end.

(** Exactly two lines, the first starting with ["Title: "] and the second
    with ["Body: "]. *)
Definition two_prefixed_lines (s : string) : bool :=
  match split_lines s with
  | [l1; l2] => String.prefix "Title: " l1 && String.prefix "Body: " l2
  | _ => false
  end.

(** ** Worlds used as concrete inputs *)

Module Examples.

Definition groceries : pyval :=
  PDict {[ "title" := PStr "Groceries";
           "body" := PDict {[ "text" := PStr ("Milk" +:+ nl +:+ "Eggs") ]} ]}.

Definition memo : pyval :=
  PDict {[ "title" := PStr "Memo";
           "body" := PDict {[ "text" := PStr "Call back" ]} ]}.

(** A checklist note: the body has a [list] and no [text]. *)
Definition checklist : pyval :=
  PDict {[ "title" := PStr "Todo";
           "body" := PDict {[ "list" := PList [PStr "a"; PStr "b"] ]} ]}.

Definition untitled : pyval :=
  PDict {[ "body" := PDict {[ "text" := PStr "Milk" ]} ]}.

Definition notes (name : string) : result pyval :=
  if String.eqb name "notes/X" then Ok groceries
  else if String.eqb name "notes/M" then Ok memo
  else if String.eqb name "notes/L" then Ok checklist
  else if String.eqb name "notes/U" then Ok untitled
  else Err (HttpError 404).

(** The credential file is there and every collaborator works. *)
Definition online : World := {|
  path_exists p := String.eqb p "service_account.json";
  from_service_account_file p sc := Ok {| cred_path := p; cred_scopes := sc |};
  discovery_build n v c :=
    Ok {| svc_name := n; svc_version := v; svc_credentials := c |};
  notes_get_execute _ name := notes name
|}.

(** As [online], but the request for ["notes/M"] fails. *)
Definition flaky : World := {|
  path_exists := path_exists online;
  from_service_account_file := from_service_account_file online;
  discovery_build := discovery_build online;
  notes_get_execute _ name :=
    if String.eqb name "notes/M" then Err (HttpError 503) else notes name
|}.

(** What [load_data] returns for [["X"; "M"]] in [online]. *)
Definition online_docs : list Document :=
  [ {| text := "Title: Groceries" +:+ nl +:+ "Body: Milk" +:+ nl +:+ "Eggs";
       extra_info := {["note_id" := "X"]} |};
    {| text := "Title: Memo" +:+ nl +:+ "Body: Call back";
       extra_info := {["note_id" := "M"]} |} ].

(** No credential file. *)
Definition unauthenticated : World := {|
  path_exists _ := false;
  from_service_account_file _ _ := Err (OtherError "FileNotFoundError");
  discovery_build := discovery_build online;
  notes_get_execute := notes_get_execute online
|}.

End Examples.

(** ** What the further properties speak about *)

Definition is_dict (v : pyval) : bool :=
  match v with PDict _ => true | _ => false end.

Definition is_str (v : pyval) : bool :=
  match v with PStr _ => true | _ => false end.

(** The resource names asked of the service, in the order of the requests. *)
Definition notes_requested (t : list event) : list string :=
  omap (λ ev, match ev with EvNotesGet name => Some name | _ => None end) t.

(** The calls a complete run over [note_ids] makes: those of one complete
    fetch per identifier, in the order of the list. *)
Definition run_events (note_ids : list string) : list event :=
  flat_map fetch_events note_ids.

(** Worlds in which a collaborator other than the service fails. *)
Module Faults.

(** The credential file is there and the loader rejects it. *)
Definition unreadable : World := {|
  path_exists := path_exists Examples.online;
  from_service_account_file _ _ := Err (OtherError "MalformedError");
  discovery_build := discovery_build Examples.online;
  notes_get_execute := notes_get_execute Examples.online
|}.

(** The credentials load and the client cannot be built. *)
Definition undiscovered : World := {|
  path_exists := path_exists Examples.online;
  from_service_account_file := from_service_account_file Examples.online;
  discovery_build _ _ _ := Err (OtherError "UnknownApiNameOrVersion");
  notes_get_execute := notes_get_execute Examples.online
|}.

(** Responses of a wrong shape: no [body]; a [body] that is a [str]; a [text]
    that is [None]; a [title] that is a number; a response that is a list. *)
Definition bodiless : pyval := PDict {[ "title" := PStr "Memo" ]}.
Definition flat_body : pyval :=
  PDict {[ "title" := PStr "Memo"; "body" := PStr "Call back" ]}.
Definition null_text : pyval :=
  PDict {[ "title" := PStr "Memo"; "body" := PDict {[ "text" := PNone ]} ]}.
Definition numbered : pyval :=
  PDict {[ "title" := PInt 7; "body" := PDict {[ "text" := PStr "Seven" ]} ]}.
Definition listing : pyval := PList [Examples.memo].

Definition odd_notes (name : string) : result pyval :=
  if String.eqb name "notes/B" then Ok bodiless
  else if String.eqb name "notes/F" then Ok flat_body
  else if String.eqb name "notes/N" then Ok null_text
  else if String.eqb name "notes/7" then Ok numbered
  else if String.eqb name "notes/A" then Ok listing
  else Examples.notes name.

(** As [Examples.online], with the odd responses too. *)
Definition odd : World := {|
  path_exists := path_exists Examples.online;
  from_service_account_file := from_service_account_file Examples.online;
  discovery_build := discovery_build Examples.online;
  notes_get_execute _ name := odd_notes name
|}.

End Faults.

(** ** Running the reader *)

Ltac unfold_M :=
  unfold mbind, M_bind, bind, call, lift, ret, raise, outcome, trace in *.

Section Run.
Context (w : World).

Lemma get_credentials_absent :
  path_exists w "service_account.json" = false →
  _get_credentials w =
    ([EvPathExists "service_account.json"],
     Err (RuntimeError "Need to authenticate with service account.")).
Proof. intros Hp. unfold _get_credentials. unfold_M. by rewrite Hp. Qed.

Lemma load_note_absent note_id :
  path_exists w "service_account.json" = false →
  _load_note w note_id =
    ([EvPathExists "service_account.json"],
     Err (RuntimeError "Need to authenticate with service account.")).
Proof.
  intros Hp. unfold _load_note.
  rewrite (get_credentials_absent Hp). by unfold_M.
Qed.

(** A fetch that reaches the service makes the four calls of
    [fetch_events] and ends as lines 63 to 66 do on the response. *)
Lemma load_note_run note_id r :
  responds w note_id r →
  _load_note w note_id =
    (fetch_events note_id,
     match r with Ok note => note_content_of note | Err e => Err e end).
Proof.
  intros (creds & svc & Hp & Hc & Hb & Hr).
  unfold _load_note, _get_credentials, note_content_of, fetch_events.
  unfold_M. rewrite Hp, Hc, Hb, Hr.
  destruct r as [note|e]; [|done].
  destruct (py_get note "title") as [title|]; [|done].
  destruct (str_add "Title: " title) as [titled|]; [|done].
  destruct (py_get note "body") as [body|]; [|done].
  destruct (py_get body "text") as [body_text|]; [|done].
  by destruct (str_add "Body: " body_text).
Qed.

(** One turn of the loop, when the fetch succeeds and when it raises. *)
Lemma load_data_loop_step_ok results note_id rest t note :
  _load_note w note_id = (t, Ok note) →
  load_data_loop w results (note_id :: rest) =
    let '(t', r) :=
      load_data_loop w
        (results ++
           [{| text := note; extra_info := {["note_id" := note_id]} |}])%list
        rest in
    ((t ++ t')%list, r).
Proof. intros H. simpl. unfold_M. by rewrite H. Qed.

Lemma load_data_loop_step_err results note_id rest t e :
  _load_note w note_id = (t, Err e) →
  load_data_loop w results (note_id :: rest) = (t, Err e).
Proof. intros H. simpl. unfold_M. by rewrite H. Qed.

(** The loop returns a list exactly when every fetch returns a text, and
    the list is then [results] followed by one record per identifier. *)
Lemma load_data_loop_ok results note_ids :
  Forall (fetch_ok w) note_ids →
  ∃ docs, outcome (load_data_loop w results note_ids) = Ok (results ++ docs)%list
          ∧ Forall2 (record_of w) note_ids docs.
Proof.
  intros Hall. revert results.
  induction Hall as [|note_id rest Hok _ IH]; intros results.
  - exists []. split; [|constructor]. simpl. by rewrite app_nil_r.
  - unfold fetch_ok in Hok.
    destruct (_load_note w note_id) as [t [note|e]] eqn:Hrun; [|done].
    rewrite (load_data_loop_step_ok _ _ _ _ _ Hrun).
    destruct (IH (results ++
      [{| text := note; extra_info := {["note_id" := note_id]} |}])%list)
      as (docs & Hout & Hrec).
    exists ({| text := note; extra_info := {["note_id" := note_id]} |} :: docs).
    split.
    + destruct (load_data_loop w _ rest) as [t' r]. simpl in *.
      by rewrite Hout, <- app_assoc.
    + constructor; [|done]. split; [|done]. by rewrite Hrun.
Qed.

Lemma load_data_loop_inv results note_ids out :
  outcome (load_data_loop w results note_ids) = Ok out →
  ∃ docs, out = (results ++ docs)%list ∧ Forall2 (record_of w) note_ids docs.
Proof.
  revert results. induction note_ids as [|note_id rest IH]; intros results Hout.
  - exists []. split; [|constructor]. simpl in Hout.
    rewrite app_nil_r. congruence.
  - destruct (_load_note w note_id) as [t [note|e]] eqn:Hrun.
    + rewrite (load_data_loop_step_ok _ _ _ _ _ Hrun) in Hout.
      destruct (load_data_loop w _ rest) as [t' r] eqn:Hrest.
      simpl in Hout. subst r.
      destruct (IH (results ++
        [{| text := note; extra_info := {["note_id" := note_id]} |}])%list)
        as (docs & -> & Hrec); [by rewrite Hrest|].
      exists ({| text := note; extra_info := {["note_id" := note_id]} |} :: docs).
      split; [by rewrite <- app_assoc|].
      constructor; [|done]. split; [|done]. by rewrite Hrun.
    + rewrite (load_data_loop_step_err _ _ _ _ _ Hrun) in Hout. done.
Qed.

(** A fetch that raises ends the loop with that exception. *)
Lemma load_data_loop_abort results pre note_id post t e :
  Forall (fetch_ok w) pre →
  _load_note w note_id = (t, Err e) →
  outcome (load_data_loop w results (pre ++ note_id :: post)%list) = Err e.
Proof.
  intros Hpre Hrun. revert results.
  induction Hpre as [|p pre Hok _ IH]; intros results.
  - simpl app. by rewrite (load_data_loop_step_err _ _ _ _ _ Hrun).
  - unfold fetch_ok in Hok.
    destruct (_load_note w p) as [tp [note|e']] eqn:Hp; [|done].
    change ((p :: pre) ++ note_id :: post)%list
      with (p :: (pre ++ note_id :: post))%list.
    rewrite (load_data_loop_step_ok _ _ _ _ _ Hp).
    specialize (IH (results ++
      [{| text := note; extra_info := {["note_id" := p]} |}])%list).
    by destruct (load_data_loop w _ (pre ++ note_id :: post)%list).
Qed.

End Run.

(** ** Strings and lines *)

Section Lines.

Lemma append_cons c (s t : string) : String c s +:+ t = String c (s +:+ t).
Proof. reflexivity. Qed.

Lemma append_assoc (a b c : string) : (a +:+ b) +:+ c = a +:+ (b +:+ c).
Proof.
  induction a as [|x a IH]; [done|].
  by rewrite !append_cons, IH.
Qed.

Lemma prefix_append (p s : string) : String.prefix p (p +:+ s) = true.
Proof.
  induction p as [|x p IH]; [by destruct s|].
  rewrite append_cons. simpl.
  destruct (ascii_dec x x); [done|congruence].
Qed.

Lemma has_newline_append (a b : string) :
  has_newline (a +:+ b) = has_newline a || has_newline b.
Proof.
  induction a as [|x a IH]; [done|].
  rewrite append_cons. simpl. by rewrite IH, orb_assoc.
Qed.

Lemma split_lines_nonempty (s : string) : split_lines s ≠ [].
Proof.
  induction s as [|c s IH]; [done|]. simpl.
  destruct (Ascii.eqb c LF); [done|]. by destruct (split_lines s).
Qed.

Lemma split_lines_single (s : string) :
  has_newline s = false → split_lines s = [s].
Proof.
  induction s as [|c s IH]; [done|]. simpl.
  destruct (Ascii.eqb c LF); [done|]. simpl. intros H. by rewrite IH.
Qed.

(** The first line break of [a +:+ nl +:+ b] is the one after [a]. *)
Lemma split_lines_break (a b : string) :
  has_newline a = false →
  split_lines (a +:+ nl +:+ b) = a :: split_lines b.
Proof.
  induction a as [|c a IH].
  - intros _. by change ("" +:+ nl +:+ b) with (String LF b).
  - simpl.
    destruct (Ascii.eqb c LF); [done|]. simpl. intros H. by rewrite IH.
Qed.

(** Every line break adds a line. *)
Lemma split_lines_count (a b : string) :
  length (split_lines (a +:+ nl +:+ b)) =
  length (split_lines a) + length (split_lines b).
Proof.
  induction a as [|c a IH].
  - by change ("" +:+ nl +:+ b) with (String LF b).
  - rewrite append_cons. simpl. destruct (Ascii.eqb c LF).
    + simpl. by rewrite IH.
    + pose proof (split_lines_nonempty (a +:+ nl +:+ b)) as Hne.
      pose proof (split_lines_nonempty a) as Hna.
      destruct (split_lines (a +:+ nl +:+ b)), (split_lines a); try done.
Qed.

End Lines.

(** ** Responses of the right and of the wrong shape *)

Section Shapes.
Context (w : World).

Lemma note_content_of_plain (d b : gmap string pyval) (T B : string) :
  d !! "title" = Some (PStr T) →
  d !! "body" = Some (PDict b) →
  b !! "text" = Some (PStr B) →
  note_content_of (PDict d) = Ok ("Title: " +:+ T +:+ nl +:+ "Body: " +:+ B).
Proof.
  intros Htitle Hbody Htext. unfold note_content_of, py_get.
  rewrite Htitle. simpl. rewrite Hbody. simpl. rewrite Htext. simpl.
  by rewrite !append_assoc.
Qed.

Lemma load_note_plain note_id (d b : gmap string pyval) (T B : string) :
  responds w note_id (Ok (PDict d)) →
  d !! "title" = Some (PStr T) →
  d !! "body" = Some (PDict b) →
  b !! "text" = Some (PStr B) →
  outcome (_load_note w note_id) =
    Ok ("Title: " +:+ T +:+ nl +:+ "Body: " +:+ B).
Proof.
  intros Hresp Htitle Hbody Htext.
  rewrite (load_note_run _ _ _ Hresp).
  by apply note_content_of_plain with b.
Qed.

(** Lines 63 to 66 either return a text or raise one of the two
    exceptions of a wrong shape. *)
Lemma note_content_of_raises (note : pyval) (e : exn) :
  note_content_of note = Err e → is_malformed_note_error e = true.
Proof.
  unfold note_content_of.
  destruct (py_get note "title") as [title|e1] eqn:Ht.
  - destruct title; simpl; try (intros [= <-]; done).
    destruct (py_get note "body") as [body|e2] eqn:Hb.
    + destruct (py_get body "text") as [body_text|e3] eqn:Hx.
      * destruct body_text; simpl; intros [= <-]; done.
      * destruct body; simpl in Hx; intros [= <-]; by simplify_eq.
    + destruct note; simpl in Hb; intros [= <-]; by simplify_eq.
  - destruct note; simpl in Ht; intros [= <-]; by simplify_eq.
Qed.

(** They return a text only for a response with a plain-text body. *)
Lemma note_content_of_returns (note : pyval) (s : string) :
  note_content_of note = Ok s → ∃ B, plain_text_body note = Some B.
Proof.
  unfold note_content_of, plain_text_body.
  destruct note as [| | | | | |d]; simpl; try done.
  destruct (default PNone (d !! "title")); simpl; try done.
  destruct (d !! "body") as [[| | | | | |b]|]; simpl; try done.
  destruct (b !! "text") as [[| | | |B| |]|]; simpl; try done.
  intros _. by exists B.
Qed.

End Shapes.

(** ** The example worlds answer *)

Lemma online_responds (note_id : string) :
  responds Examples.online note_id (Examples.notes ("notes/" +:+ note_id)).
Proof.
  exists {| cred_path := "service_account.json"; cred_scopes := SCOPES |}.
  exists {| svc_name := "keep"; svc_version := "v1";
            svc_credentials :=
              {| cred_path := "service_account.json"; cred_scopes := SCOPES |} |}.
  repeat split; reflexivity.
Defined.

Lemma flaky_responds (note_id : string) :
  responds Examples.flaky note_id
    (if String.eqb ("notes/" +:+ note_id) "notes/M" then Err (HttpError 503)
     else Examples.notes ("notes/" +:+ note_id)).
Proof.
  exists {| cred_path := "service_account.json"; cred_scopes := SCOPES |}.
  exists {| svc_name := "keep"; svc_version := "v1";
            svc_credentials :=
              {| cred_path := "service_account.json"; cred_scopes := SCOPES |} |}.
  repeat split; reflexivity.
Defined.

(** ** The claims *)

(** C1. When the response to the request for a note has title [T] and
    plain-text body [B], [_load_note] returns exactly
    ["Title: " + T + "\n" + "Body: " + B]; for the title ["Groceries"] and
    the body ["Milk\nEggs"] that is ["Title: Groceries\nBody: Milk\nEggs"]. *)
Theorem load_note_text (w : World) (note_id : string)
    (d b : gmap string pyval) (T B : string) :
  responds w note_id (Ok (PDict d)) →
  d !! "title" = Some (PStr T) →
  d !! "body" = Some (PDict b) →
  b !! "text" = Some (PStr B) →
  outcome (_load_note w note_id) = Ok ("Title: " +:+ T +:+ nl +:+ "Body: " +:+ B)
  ∧ (T = "Groceries" → B = "Milk" +:+ nl +:+ "Eggs" →
     outcome (_load_note w note_id) =
       Ok ("Title: Groceries" +:+ nl +:+ "Body: Milk" +:+ nl +:+ "Eggs")).
Proof.
  intros Hresp Htitle Hbody Htext.
  pose proof (load_note_plain w note_id d b T B Hresp Htitle Hbody Htext) as Hrun.
  split; [done|]. intros -> ->. by rewrite Hrun.
Qed.

Lemma load_note_text_witness :
  outcome (_load_note Examples.online "X") =
    Ok ("Title: Groceries" +:+ nl +:+ "Body: Milk" +:+ nl +:+ "Eggs").
Proof.
  refine (proj2 (load_note_text Examples.online "X"
            {[ "title" := PStr "Groceries";
               "body" := PDict {[ "text" := PStr ("Milk" +:+ nl +:+ "Eggs") ]} ]}
            {[ "text" := PStr ("Milk" +:+ nl +:+ "Eggs") ]}
            "Groceries" ("Milk" +:+ nl +:+ "Eggs") _ _ _ _) eq_refl eq_refl).
  - exact (online_responds _).
  - reflexivity.
  - reflexivity.
  - reflexivity.
Defined.

(** C2. On a list of identifiers whose fetches all succeed, [load_data]
    returns one [Document] per identifier, in the order of the input: the
    [i]-th record is the one built for the [i]-th identifier, and the output
    is as long as the input. *)
Theorem load_data_one_record_per_id (w : World) (note_ids : list string) :
  Forall (fetch_ok w) note_ids →
  ∃ docs, outcome (load_data w (Some note_ids)) = Ok docs
          ∧ length docs = length note_ids
          ∧ Forall2 (record_of w) note_ids docs.
Proof.
  intros Hall.
  destruct (load_data_loop_ok w [] note_ids Hall) as (docs & Hout & Hrec).
  exists docs. split; [done|]. split; [|done].
  symmetry. by eapply Forall2_length.
Qed.

Lemma load_data_one_record_per_id_witness :
  ∃ docs, outcome (load_data Examples.online (Some ["X"; "M"])) = Ok docs
          ∧ length docs = 2
          ∧ Forall2 (record_of Examples.online) ["X"; "M"] docs.
Proof.
  apply (load_data_one_record_per_id Examples.online ["X"; "M"]).
  repeat constructor.
Defined.

(** C3. Every record [load_data] returns carries, in its metadata and under
    the key ["note_id"], the identifier it was fetched for. *)
Theorem load_data_metadata (w : World) (note_ids : list string)
    (docs : list Document) (i : nat) (note_id : string) :
  outcome (load_data w (Some note_ids)) = Ok docs →
  note_ids !! i = Some note_id →
  ∃ doc, docs !! i = Some doc ∧ extra_info doc !! "note_id" = Some note_id.
Proof.
  intros Hout Hi.
  destruct (load_data_loop_inv w [] note_ids docs Hout) as (docs' & -> & Hrec).
  destruct (Forall2_lookup_l _ _ _ _ _ Hrec Hi) as (doc & Hdoc & _ & Hmeta).
  exists doc. split; [done|]. rewrite Hmeta. apply lookup_singleton_eq.
Qed.

Lemma load_data_metadata_witness :
  ∃ doc, Examples.online_docs !! 1 = Some doc
         ∧ extra_info doc !! "note_id" = Some "M".
Proof.
  apply (load_data_metadata Examples.online ["X"; "M"] Examples.online_docs 1 "M");
    reflexivity.
Defined.

(** C4. Called with [None], [load_data] raises [ValueError] without having
    called any collaborator: no credential check, no fetch, no list. *)
Theorem load_data_none (w : World) :
  outcome (load_data w None) =
    Err (ValueError ("Must specify a " +:+ dq +:+ "note_ids" +:+ dq +:+
                     " in `load_kwargs`."))
  ∧ trace (load_data w None) = [].
Proof. by split. Qed.

(** C5. On the empty list [load_data] returns the empty list, and the trace
    has no remote call and no credential load (it is empty). *)
Theorem load_data_empty (w : World) :
  outcome (load_data w (Some [])) = Ok []
  ∧ remote_calls (trace (load_data w (Some []))) = []
  ∧ credential_loads (trace (load_data w (Some []))) = []
  ∧ trace (load_data w (Some [])) = [].
Proof. by repeat split. Qed.

(** C6, as the spec has it, fails on the empty list: with no credential
    file, [load_data] on [[]] never asks for credentials and returns [[]]. *)
Lemma load_data_unauthenticated_empty :
  path_exists Examples.unauthenticated "service_account.json" = false
  ∧ outcome (load_data Examples.unauthenticated (Some [])) = Ok []
  ∧ is_ok (outcome (load_data Examples.unauthenticated (Some []))) = true.
Proof. by repeat split. Qed.

(** C6, amended. With no [service_account.json], [_get_credentials] raises
    [RuntimeError]; [load_data] on a non-empty list raises it too, at the
    first identifier and before any remote call; and no call of [load_data]
    whatever makes a remote call. *)
Theorem load_data_unauthenticated (w : World) :
  path_exists w "service_account.json" = false →
  outcome (_get_credentials w) =
    Err (RuntimeError "Need to authenticate with service account.")
  ∧ (∀ note_id rest,
       outcome (load_data w (Some (note_id :: rest))) =
         Err (RuntimeError "Need to authenticate with service account.")
       ∧ trace (load_data w (Some (note_id :: rest))) =
           [EvPathExists "service_account.json"])
  ∧ (∀ note_ids, remote_calls (trace (load_data w note_ids)) = []).
Proof.
  intros Hp.
  assert (∀ note_id rest,
            load_data w (Some (note_id :: rest)) =
              ([EvPathExists "service_account.json"],
               Err (RuntimeError "Need to authenticate with service account.")))
    as Hcons.
  { intros note_id rest. unfold load_data.
    by rewrite (load_data_loop_step_err w _ _ _ _ _ (load_note_absent w note_id Hp)). }
  split; [by rewrite (get_credentials_absent w Hp)|]. split.
  - intros note_id rest. by rewrite Hcons.
  - intros [[|note_id rest]|]; [done| |done]. by rewrite Hcons.
Qed.

Lemma load_data_unauthenticated_witness :
  outcome (_get_credentials Examples.unauthenticated) =
    Err (RuntimeError "Need to authenticate with service account.")
  ∧ (∀ note_id rest,
       outcome (load_data Examples.unauthenticated (Some (note_id :: rest))) =
         Err (RuntimeError "Need to authenticate with service account.")
       ∧ trace (load_data Examples.unauthenticated (Some (note_id :: rest))) =
           [EvPathExists "service_account.json"])
  ∧ (∀ note_ids,
       remote_calls (trace (load_data Examples.unauthenticated note_ids)) = []).
Proof. apply (load_data_unauthenticated Examples.unauthenticated). reflexivity. Defined.

(** C7. When the request for one of the identifiers fails with [e],
    [load_data] returns no list, whatever was fetched before; if the fetches
    before it succeeded, what it raises is [e] itself.  The reader keeps
    nothing between calls: in a world [w'] where every fetch succeeds, the
    same call returns all the records. *)
Theorem load_data_remote_failure (w w' : World) (note_ids : list string)
    (note_id : string) (e : exn) :
  note_id ∈ note_ids →
  responds w note_id (Err e) →
  Forall (fetch_ok w') note_ids →
  is_ok (outcome (load_data w (Some note_ids))) = false
  ∧ (∀ pre post, note_ids = (pre ++ note_id :: post)%list →
       Forall (fetch_ok w) pre →
       outcome (load_data w (Some note_ids)) = Err e)
  ∧ ∃ docs, outcome (load_data w' (Some note_ids)) = Ok docs
            ∧ length docs = length note_ids
            ∧ Forall2 (record_of w') note_ids docs.
Proof.
  intros Hin Hresp Hall.
  pose proof (load_note_run w note_id _ Hresp) as Hrun.
  split; [|split].
  - destruct (outcome (load_data w (Some note_ids))) as [out|] eqn:Hout; [|done].
    destruct (load_data_loop_inv w [] note_ids out Hout) as (docs & _ & Hrec).
    apply list_elem_of_lookup in Hin as [i Hi].
    destruct (Forall2_lookup_l _ _ _ _ _ Hrec Hi) as (doc & _ & Hdoc & _).
    rewrite Hrun in Hdoc. done.
  - intros pre post -> Hpre.
    by apply (load_data_loop_abort w [] pre note_id post (fetch_events note_id) e).
  - destruct (load_data_loop_ok w' [] note_ids Hall) as (docs & Hout & Hrec).
    exists docs. split; [done|]. split; [|done].
    symmetry. by eapply Forall2_length.
Qed.

Lemma load_data_remote_failure_witness :
  outcome (load_data Examples.flaky (Some ["X"; "M"; "X"])) = Err (HttpError 503)
  ∧ ∃ docs, outcome (load_data Examples.online (Some ["X"; "M"; "X"])) = Ok docs
            ∧ length docs = 3
            ∧ Forall2 (record_of Examples.online) ["X"; "M"; "X"] docs.
Proof.
  assert ("M" ∈ ["X"; "M"; "X"]) as Hin by (right; left).
  assert (responds Examples.flaky "M" (Err (HttpError 503))) as Hresp.
  { exact (flaky_responds _). }
  assert (Forall (fetch_ok Examples.online) ["X"; "M"; "X"]) as Hall
    by repeat constructor.
  destruct (load_data_remote_failure Examples.flaky Examples.online
              ["X"; "M"; "X"] "M" (HttpError 503) Hin Hresp Hall)
    as (_ & Herr & Hagain).
  split; [|exact Hagain].
  apply (Herr ["X"] ["X"]); [reflexivity|repeat constructor].
Defined.

(** C8. When the response has no plain-text body (no [body], a [body]
    without [text], or a [text] that is not a [str]), [_load_note] raises
    [TypeError] or [AttributeError] and returns no text. *)
Theorem load_note_without_text (w : World) (note_id : string) (note : pyval) :
  responds w note_id (Ok note) →
  plain_text_body note = None →
  ∃ e, outcome (_load_note w note_id) = Err e
       ∧ is_malformed_note_error e = true.
Proof.
  intros Hresp Hnone. rewrite (load_note_run w note_id _ Hresp). simpl.
  destruct (note_content_of note) as [s|e] eqn:Hrun.
  - destruct (note_content_of_returns note s Hrun) as [B HB]. congruence.
  - exists e. split; [done|]. by apply (note_content_of_raises note).
Qed.

Lemma load_note_without_text_witness :
  ∃ e, outcome (_load_note Examples.online "L") = Err e
       ∧ is_malformed_note_error e = true.
Proof.
  apply (load_note_without_text Examples.online "L" Examples.checklist).
  - exact (online_responds _).
  - reflexivity.
Defined.

(** C9, as the spec has it, fails on the spec's own example: the title
    ["Groceries"] and the body ["Milk\nEggs"] hold no ["Title: "], and the
    text has three lines. *)
Lemma load_note_three_lines :
  occurs "Title: " "Groceries" = false
  ∧ occurs "Title: " ("Milk" +:+ nl +:+ "Eggs") = false
  ∧ plain_text_body Examples.groceries = Some ("Milk" +:+ nl +:+ "Eggs")
  ∧ ∃ txt, outcome (_load_note Examples.online "X") = Ok txt
           ∧ length (split_lines txt) = 3
           ∧ two_prefixed_lines txt = false.
Proof.
  repeat split; try reflexivity.
  exists ("Title: Groceries" +:+ nl +:+ "Body: Milk" +:+ nl +:+ "Eggs").
  by repeat split.
Qed.

(** C9, amended. When neither the title [T] nor the body [B] holds a line
    break, the text has exactly two lines: ["Title: " + T], then
    ["Body: " + B]. *)
Theorem load_note_two_lines (w : World) (note_id : string)
    (d b : gmap string pyval) (T B : string) :
  responds w note_id (Ok (PDict d)) →
  d !! "title" = Some (PStr T) →
  d !! "body" = Some (PDict b) →
  b !! "text" = Some (PStr B) →
  has_newline T = false →
  has_newline B = false →
  ∃ txt, outcome (_load_note w note_id) = Ok txt
         ∧ split_lines txt = ["Title: " +:+ T; "Body: " +:+ B]
         ∧ two_prefixed_lines txt = true.
Proof.
  intros Hresp Htitle Hbody Htext HT HB.
  exists ("Title: " +:+ T +:+ nl +:+ "Body: " +:+ B).
  split; [by apply load_note_plain with d b|].
  assert (split_lines ("Title: " +:+ T +:+ nl +:+ "Body: " +:+ B) =
            ["Title: " +:+ T; "Body: " +:+ B]) as Hlines.
  { rewrite <- append_assoc.
    rewrite split_lines_break by (by rewrite has_newline_append, HT).
    by rewrite split_lines_single by (by rewrite has_newline_append, HB). }
  split; [done|]. unfold two_prefixed_lines. rewrite Hlines.
  by rewrite !prefix_append.
Qed.

Lemma load_note_two_lines_witness :
  ∃ txt, outcome (_load_note Examples.online "M") = Ok txt
         ∧ split_lines txt = ["Title: " +:+ "Memo"; "Body: " +:+ "Call back"]
         ∧ two_prefixed_lines txt = true.
Proof.
  apply (load_note_two_lines Examples.online "M"
           {[ "title" := PStr "Memo";
              "body" := PDict {[ "text" := PStr "Call back" ]} ]}
           {[ "text" := PStr "Call back" ]} "Memo" "Call back").
  - exact (online_responds _).
  - reflexivity.
  - reflexivity.
  - reflexivity.
  - reflexivity.
  - reflexivity.
Defined.

(** C10. When the response has no title (the key is missing, or its value is
    [None]), [_load_note] raises [TypeError] at line 63 and returns no text. *)
Theorem load_note_without_title (w : World) (note_id : string)
    (d : gmap string pyval) :
  responds w note_id (Ok (PDict d)) →
  d !! "title" = None ∨ d !! "title" = Some PNone →
  outcome (_load_note w note_id) = Err TypeError
  ∧ is_ok (outcome (_load_note w note_id)) = false.
Proof.
  intros Hresp Htitle.
  assert (outcome (_load_note w note_id) = Err TypeError) as Hrun.
  { rewrite (load_note_run w note_id _ Hresp). unfold note_content_of, py_get.
    by destruct Htitle as [-> | ->]. }
  split; [done|]. by rewrite Hrun.
Qed.

Lemma load_note_without_title_witness :
  outcome (_load_note Examples.online "U") = Err TypeError
  ∧ is_ok (outcome (_load_note Examples.online "U")) = false.
Proof.
  apply (load_note_without_title Examples.online "U"
           {[ "body" := PDict {[ "text" := PStr "Milk" ]} ]}).
  - exact (online_responds _).
  - left. reflexivity.
Defined.

(** ** The calls the reader makes *)

Section Traces.
Context (w : World).

(** [_load_note] by the point at which it stops. *)
Lemma load_note_unfold (note_id : string) :
  _load_note w note_id =
    if path_exists w "service_account.json" then
      match from_service_account_file w "service_account.json" SCOPES with
      | Err e =>
          ([EvPathExists "service_account.json";
            EvFromServiceAccountFile "service_account.json" SCOPES], Err e)
      | Ok creds =>
          match discovery_build w "keep" "v1" creds with
          | Err e =>
              ([EvPathExists "service_account.json";
                EvFromServiceAccountFile "service_account.json" SCOPES;
                EvDiscoveryBuild "keep" "v1"], Err e)
          | Ok svc =>
              (fetch_events note_id,
               match notes_get_execute w svc ("notes/" +:+ note_id) with
               | Ok note => note_content_of note
               | Err e => Err e
               end)
          end
      end
    else ([EvPathExists "service_account.json"],
          Err (RuntimeError "Need to authenticate with service account.")).
Proof.
  destruct (path_exists w "service_account.json") eqn:Hp;
    [|by apply load_note_absent].
  destruct (from_service_account_file w "service_account.json" SCOPES)
    as [creds|e] eqn:Hc.
  - destruct (discovery_build w "keep" "v1" creds) as [svc|e] eqn:Hb.
    + apply load_note_run. by exists creds, svc.
    + unfold _load_note, _get_credentials. unfold_M. by rewrite Hp, Hc, Hb.
  - unfold _load_note, _get_credentials. unfold_M. by rewrite Hp, Hc.
Qed.

Lemma load_note_trace_prefix (note_id : string) :
  trace (_load_note w note_id) `prefix_of` fetch_events note_id.
Proof.
  rewrite load_note_unfold.
  destruct (path_exists w "service_account.json"); [|by eexists].
  destruct (from_service_account_file w "service_account.json" SCOPES)
    as [creds|e]; [|by eexists].
  destruct (discovery_build w "keep" "v1" creds) as [svc|e]; [|by eexists].
  done.
Qed.

(** A fetch that returns went all the way: four calls and a response that
    lines 63 to 66 accept. *)
Lemma load_note_ok_inv (note_id s : string) :
  outcome (_load_note w note_id) = Ok s →
  trace (_load_note w note_id) = fetch_events note_id
  ∧ ∃ note, responds w note_id (Ok note) ∧ note_content_of note = Ok s.
Proof.
  rewrite load_note_unfold.
  destruct (path_exists w "service_account.json") eqn:Hp; [|done].
  destruct (from_service_account_file w "service_account.json" SCOPES)
    as [creds|e] eqn:Hc; [|done].
  destruct (discovery_build w "keep" "v1" creds) as [svc|e] eqn:Hb; [|done].
  destruct (notes_get_execute w svc ("notes/" +:+ note_id))
    as [note|e] eqn:Hr; [|done].
  simpl. intros Hs. split; [done|].
  exists note. split; [|done]. by exists creds, svc.
Qed.

Lemma fetch_ok_trace (note_id : string) :
  fetch_ok w note_id → trace (_load_note w note_id) = fetch_events note_id.
Proof.
  unfold fetch_ok. intros Hok.
  destruct (outcome (_load_note w note_id)) as [s|] eqn:Hs; [|done].
  by destruct (load_note_ok_inv note_id s Hs).
Qed.

(** What is already in [results] passes through the loop untouched. *)
Lemma load_data_loop_acc (results : list Document) (note_ids : list string) :
  load_data_loop w results note_ids =
    (trace (load_data_loop w [] note_ids),
     match outcome (load_data_loop w [] note_ids) with
     | Ok docs => Ok (results ++ docs)%list
     | Err e => Err e
     end).
Proof.
  revert results. induction note_ids as [|note_id rest IH]; intros results.
  - simpl. by rewrite app_nil_r.
  - destruct (_load_note w note_id) as [t [note|e]] eqn:Hrun.
    + rewrite !(load_data_loop_step_ok w _ _ _ _ _ Hrun).
      rewrite (IH (results ++ _)%list), (IH ([] ++ _)%list). simpl.
      destruct (outcome (load_data_loop w [] rest)); [|done].
      by rewrite <- app_assoc.
    + by rewrite !(load_data_loop_step_err w _ _ _ _ _ Hrun).
Qed.

Lemma load_data_loop_trace_ok (results : list Document) (note_ids : list string) :
  Forall (fetch_ok w) note_ids →
  trace (load_data_loop w results note_ids) = run_events note_ids.
Proof.
  intros Hall. revert results.
  induction Hall as [|note_id rest Hok _ IH]; intros results; [done|].
  pose proof (fetch_ok_trace note_id Hok) as Ht. unfold fetch_ok in Hok.
  destruct (_load_note w note_id) as [t [note|e]] eqn:Hrun; [|done].
  rewrite (load_data_loop_step_ok w _ _ _ _ _ Hrun).
  specialize (IH (results ++
    [{| text := note; extra_info := {["note_id" := note_id]} |}])%list).
  destruct (load_data_loop w _ rest) as [t' r]. simpl in *.
  unfold run_events in *. simpl. by rewrite Ht, IH.
Qed.

Lemma load_data_loop_trace_prefix (results : list Document)
    (note_ids : list string) :
  trace (load_data_loop w results note_ids) `prefix_of` run_events note_ids.
Proof.
  revert results. induction note_ids as [|note_id rest IH]; intros results; [done|].
  pose proof (load_note_trace_prefix note_id) as Hpre.
  destruct (_load_note w note_id) as [t [note|e]] eqn:Hrun.
  - assert (t = fetch_events note_id) as ->.
    { change t with (trace (t, Ok note : result string)). rewrite <- Hrun.
      apply fetch_ok_trace. unfold fetch_ok. by rewrite Hrun. }
    rewrite (load_data_loop_step_ok w _ _ _ _ _ Hrun).
    specialize (IH (results ++
      [{| text := note; extra_info := {["note_id" := note_id]} |}])%list).
    destruct (load_data_loop w _ rest) as [t' r].
    unfold trace in *. cbn [fst] in *.
    change (run_events (note_id :: rest))
      with (fetch_events note_id ++ run_events rest)%list.
    by apply prefix_app.
  - rewrite (load_data_loop_step_err w _ _ _ _ _ Hrun).
    change (run_events (note_id :: rest))
      with (fetch_events note_id ++ run_events rest)%list.
    by apply prefix_app_r.
Qed.

Lemma load_data_loop_first_failure (results : list Document)
    (pre : list string) (note_id : string) (post : list string)
    (t : list event) (e : exn) :
  Forall (fetch_ok w) pre →
  _load_note w note_id = (t, Err e) →
  load_data_loop w results (pre ++ note_id :: post)%list =
    ((run_events pre ++ t)%list, Err e).
Proof.
  intros Hpre Hrun. revert results.
  induction Hpre as [|p pre Hok _ IH]; intros results.
  - simpl app. by rewrite (load_data_loop_step_err w _ _ _ _ _ Hrun).
  - pose proof (fetch_ok_trace p Hok) as Ht. unfold fetch_ok in Hok.
    destruct (_load_note w p) as [tp [note|e']] eqn:Hp; [|done].
    change ((p :: pre) ++ note_id :: post)%list
      with (p :: (pre ++ note_id :: post))%list.
    rewrite (load_data_loop_step_ok w _ _ _ _ _ Hp), IH.
    unfold trace in Ht. cbn [fst] in Ht. subst tp.
    change (run_events (p :: pre))
      with (fetch_events p ++ run_events pre)%list.
    by rewrite <- app_assoc.
Qed.

End Traces.

Section Batches.
Context (w : World).

(** The loop over [a ++ b] is the loop over [a], then the loop over [b] on
    what the first one returned. *)
Lemma load_data_loop_app (a b : list string) (results out : list Document)
    (ta : list event) :
  load_data_loop w results a = (ta, Ok out) →
  load_data_loop w results (a ++ b)%list =
    ((ta ++ trace (load_data_loop w out b))%list,
     outcome (load_data_loop w out b)).
Proof.
  revert results ta. induction a as [|note_id rest IH]; intros results ta Ha.
  - simpl in Ha. unfold ret in Ha. simplify_eq. simpl app.
    by destruct (load_data_loop w out b).
  - destruct (_load_note w note_id) as [t [note|e]] eqn:Hrun.
    + rewrite (load_data_loop_step_ok w _ _ _ _ _ Hrun) in Ha.
      change ((note_id :: rest) ++ b)%list with (note_id :: (rest ++ b))%list.
      rewrite (load_data_loop_step_ok w _ _ _ _ _ Hrun).
      destruct (load_data_loop w _ rest) as [t' r] eqn:Hrest.
      simplify_eq. rewrite (IH _ _ Hrest). by rewrite <- app_assoc.
    + rewrite (load_data_loop_step_err w _ _ _ _ _ Hrun) in Ha. done.
Qed.

Lemma notes_requested_run (note_ids : list string) :
  notes_requested (run_events note_ids) = map (λ id, "notes/" +:+ id) note_ids.
Proof.
  induction note_ids as [|note_id rest IH]; [done|].
  change (run_events (note_id :: rest))
    with (fetch_events note_id ++ run_events rest)%list.
  unfold notes_requested in *. by rewrite omap_app, IH.
Qed.

Lemma credential_loads_run (note_ids : list string) :
  length (credential_loads (run_events note_ids)) = length note_ids.
Proof.
  induction note_ids as [|note_id rest IH]; [done|].
  change (run_events (note_id :: rest))
    with (fetch_events note_id ++ run_events rest)%list.
  unfold credential_loads in *. rewrite List.filter_app, length_app, IH. done.
Qed.

Lemma remote_calls_run (note_ids : list string) :
  length (remote_calls (run_events note_ids)) = 2 * length note_ids.
Proof.
  induction note_ids as [|note_id rest IH]; [done|].
  change (run_events (note_id :: rest))
    with (fetch_events note_id ++ run_events rest)%list.
  unfold remote_calls in *. rewrite List.filter_app, length_app, IH.
  simpl. lia.
Qed.

Lemma elem_of_run_events (ev : event) (note_ids : list string) :
  ev ∈ run_events note_ids →
  ∃ note_id, note_id ∈ note_ids ∧ ev ∈ fetch_events note_id.
Proof.
  induction note_ids as [|note_id rest IH].
  - by intros ?%elem_of_nil.
  - change (run_events (note_id :: rest))
      with (fetch_events note_id ++ run_events rest)%list.
    intros [Hev|Hev]%elem_of_app.
    + exists note_id. split; [left|done].
    + destruct (IH Hev) as (id & Hid & Hin). exists id. split; [by right|done].
Qed.

End Batches.

Section Texts.

(** Lines 63 to 66 return a text only on a dict with a [str] title and a
    [str] at [body.text], and the text is then built from these two. *)
Lemma note_content_of_inv (note : pyval) (s : string) :
  note_content_of note = Ok s →
  ∃ d b T B, note = PDict d
             ∧ d !! "title" = Some (PStr T)
             ∧ d !! "body" = Some (PDict b)
             ∧ b !! "text" = Some (PStr B)
             ∧ s = "Title: " +:+ T +:+ nl +:+ "Body: " +:+ B.
Proof.
  unfold note_content_of.
  destruct note as [| | | | | |d]; simpl; try done.
  destruct (d !! "title") as [[| | | |T| |]|] eqn:Ht; simpl; try done.
  destruct (d !! "body") as [[| | | | | |b]|] eqn:Hb; simpl; try done.
  destruct (b !! "text") as [[| | | |B| |]|] eqn:Hx; simpl; try done.
  intros [= <-]. exists d, b, T, B. by rewrite !append_assoc.
Qed.

(** A text is cut at its first line break in one way only. *)
Lemma append_nl_inj (a a' x x' : string) :
  has_newline a = false →
  has_newline a' = false →
  a +:+ nl +:+ x = a' +:+ nl +:+ x' →
  a = a' ∧ x = x'.
Proof.
  revert a'. induction a as [|c a IH]; intros [|c' a'] Ha Ha' Heq.
  - by injection Heq.
  - injection Heq as <- _. simpl in Ha'. done.
  - injection Heq as -> _. simpl in Ha. done.
  - injection Heq as -> Heq. simpl in Ha, Ha'.
    apply orb_false_elim in Ha as [_ Ha]. apply orb_false_elim in Ha' as [_ Ha'].
    destruct (IH a' Ha Ha' Heq) as [-> ->]. done.
Qed.

Lemma split_lines_lead_count (p s : string) :
  has_newline p = false →
  length (split_lines (p +:+ s)) = length (split_lines s).
Proof.
  induction p as [|c p IH]; [done|]. simpl.
  destruct (Ascii.eqb c LF); [done|]. simpl. intros Hp.
  pose proof (split_lines_nonempty (p +:+ s)) as Hne.
  specialize (IH Hp). by destruct (split_lines (p +:+ s)).
Qed.

End Texts.

Lemma odd_responds (note_id : string) :
  responds Faults.odd note_id (Faults.odd_notes ("notes/" +:+ note_id)).
Proof.
  exists {| cred_path := "service_account.json"; cred_scopes := SCOPES |}.
  exists {| svc_name := "keep"; svc_version := "v1";
            svc_credentials :=
              {| cred_path := "service_account.json"; cred_scopes := SCOPES |} |}.
  repeat split; reflexivity.
Defined.

(** ** Further properties of the reader *)

(** X1. Whatever the collaborators answer, the calls [load_data] makes are an
    initial part of one fixed sequence: for each identifier in input order,
    the existence check, the credential load, the client build and the
    request for that note. *)
Theorem load_data_trace_prefix (w : World) (note_ids : list string) :
  trace (load_data w (Some note_ids)) `prefix_of` run_events note_ids.
Proof. apply load_data_loop_trace_prefix. Qed.

(** X2. Every call [load_data] makes is one of four: it looks for and loads
    [service_account.json] only, asks for the read-only scope only, builds
    the [keep] [v1] client only, and requests only notes named in its
    input. *)
Theorem load_data_calls_fixed (w : World) (note_ids : list string)
    (ev : event) :
  ev ∈ trace (load_data w (Some note_ids)) →
  match ev with
  | EvPathExists path => path = "service_account.json"
  | EvFromServiceAccountFile path scopes =>
      path = "service_account.json"
      ∧ scopes = ["https://www.googleapis.com/auth/keep.readonly"]
  | EvDiscoveryBuild name version => name = "keep" ∧ version = "v1"
  | EvNotesGet name =>
      ∃ note_id, note_id ∈ note_ids ∧ name = "notes/" +:+ note_id
  end.
Proof.
  intros Hev.
  destruct (load_data_loop_trace_prefix w [] note_ids) as [k Hk].
  assert (ev ∈ run_events note_ids) as Hrun.
  { rewrite Hk. apply elem_of_app. by left. }
  destruct (elem_of_run_events ev note_ids Hrun) as (note_id & Hid & Hin).
  apply list_elem_of_In in Hin. simpl in Hin.
  destruct Hin as [<-|[<-|[<-|[<-|[]]]]]; try done.
  by exists note_id.
Qed.

Lemma load_data_calls_fixed_witness :
  ∃ note_id, note_id ∈ ["X"] ∧ "notes/X" = "notes/" +:+ note_id.
Proof.
  apply (load_data_calls_fixed Examples.online ["X"] (EvNotesGet "notes/X")).
  apply list_elem_of_In. do 3 right. left. reflexivity.
Defined.

(** X3. When every fetch succeeds, [load_data] makes exactly the calls of one
    complete fetch per identifier: the notes requested are [notes/{id}] for
    the identifiers in input order, and the credential file is loaded once
    per identifier (nothing is kept from one fetch to the next). *)
Theorem load_data_trace_success (w : World) (note_ids : list string) :
  Forall (fetch_ok w) note_ids →
  trace (load_data w (Some note_ids)) = run_events note_ids
  ∧ notes_requested (trace (load_data w (Some note_ids))) =
      map (λ note_id, "notes/" +:+ note_id) note_ids
  ∧ length (credential_loads (trace (load_data w (Some note_ids)))) =
      length note_ids
  ∧ length (remote_calls (trace (load_data w (Some note_ids)))) =
      2 * length note_ids.
Proof.
  intros Hall.
  assert (trace (load_data w (Some note_ids)) = run_events note_ids) as ->
    by apply (load_data_loop_trace_ok w [] note_ids Hall).
  split; [done|].
  by rewrite notes_requested_run, credential_loads_run, remote_calls_run.
Qed.

Lemma load_data_trace_success_witness :
  trace (load_data Examples.online (Some ["X"; "M"])) = run_events ["X"; "M"]
  ∧ notes_requested (trace (load_data Examples.online (Some ["X"; "M"]))) =
      ["notes/X"; "notes/M"]
  ∧ length (credential_loads (trace (load_data Examples.online (Some ["X"; "M"])))) = 2
  ∧ length (remote_calls (trace (load_data Examples.online (Some ["X"; "M"])))) = 4.
Proof.
  apply (load_data_trace_success Examples.online ["X"; "M"]).
  repeat constructor.
Defined.

(** X4. [load_data] stops at the first fetch that raises, whatever it raises:
    it raises that exception, and its calls are those of the complete fetches
    before it followed by those of the failing fetch; nothing is asked for the
    identifiers after it. *)
Theorem load_data_first_failure (w : World) (pre : list string)
    (note_id : string) (post : list string) (e : exn) :
  Forall (fetch_ok w) pre →
  outcome (_load_note w note_id) = Err e →
  outcome (load_data w (Some (pre ++ note_id :: post)%list)) = Err e
  ∧ trace (load_data w (Some (pre ++ note_id :: post)%list)) =
      (run_events pre ++ trace (_load_note w note_id))%list.
Proof.
  intros Hpre Herr.
  destruct (_load_note w note_id) as [t r] eqn:Hrun. simpl in Herr. subst r.
  unfold load_data.
  by rewrite (load_data_loop_first_failure w [] pre note_id post t e Hpre Hrun).
Qed.

Lemma load_data_first_failure_witness :
  outcome (load_data Examples.online (Some ["X"; "L"; "M"])) = Err TypeError
  ∧ trace (load_data Examples.online (Some ["X"; "L"; "M"])) =
      (run_events ["X"] ++ trace (_load_note Examples.online "L"))%list.
Proof.
  apply (load_data_first_failure Examples.online ["X"] "L" ["M"] TypeError).
  - repeat constructor.
  - reflexivity.
Defined.

(** X5. When [service_account.json] is there and the loader raises [e],
    [_get_credentials] raises [e]; a fetch, and [load_data] on a non-empty
    list, raise [e] after the existence check and the load attempt, with no
    remote call. *)
Theorem load_note_unreadable_credentials (w : World) (e : exn) :
  path_exists w "service_account.json" = true →
  from_service_account_file w "service_account.json" SCOPES = Err e →
  outcome (_get_credentials w) = Err e
  ∧ ∀ note_id rest,
      outcome (_load_note w note_id) = Err e
      ∧ outcome (load_data w (Some (note_id :: rest))) = Err e
      ∧ trace (load_data w (Some (note_id :: rest))) =
          [EvPathExists "service_account.json";
           EvFromServiceAccountFile "service_account.json" SCOPES]
      ∧ remote_calls (trace (load_data w (Some (note_id :: rest)))) = [].
Proof.
  intros Hp Hc. split.
  - unfold _get_credentials. unfold_M. by rewrite Hp, Hc.
  - intros note_id rest.
    pose proof (load_note_unfold w note_id) as Hrun. rewrite Hp, Hc in Hrun.
    unfold load_data.
    rewrite (load_data_loop_step_err w _ _ _ _ _ Hrun). by rewrite Hrun.
Qed.

Lemma load_note_unreadable_credentials_witness :
  outcome (_get_credentials Faults.unreadable) = Err (OtherError "MalformedError")
  ∧ ∀ note_id rest,
      outcome (_load_note Faults.unreadable note_id) =
        Err (OtherError "MalformedError")
      ∧ outcome (load_data Faults.unreadable (Some (note_id :: rest))) =
          Err (OtherError "MalformedError")
      ∧ trace (load_data Faults.unreadable (Some (note_id :: rest))) =
          [EvPathExists "service_account.json";
           EvFromServiceAccountFile "service_account.json" SCOPES]
      ∧ remote_calls
          (trace (load_data Faults.unreadable (Some (note_id :: rest)))) = [].
Proof.
  apply (load_note_unreadable_credentials Faults.unreadable
           (OtherError "MalformedError")); reflexivity.
Defined.

(** X6. When the credentials load and [discovery.build] raises [e], a fetch
    raises [e] and no note is requested. *)
Theorem load_note_build_failure (w : World) (note_id : string)
    (creds : Credentials) (e : exn) :
  path_exists w "service_account.json" = true →
  from_service_account_file w "service_account.json" SCOPES = Ok creds →
  discovery_build w "keep" "v1" creds = Err e →
  outcome (_load_note w note_id) = Err e
  ∧ trace (_load_note w note_id) =
      [EvPathExists "service_account.json";
       EvFromServiceAccountFile "service_account.json" SCOPES;
       EvDiscoveryBuild "keep" "v1"]
  ∧ notes_requested (trace (_load_note w note_id)) = [].
Proof.
  intros Hp Hc Hb. rewrite load_note_unfold, Hp, Hc, Hb. done.
Qed.

Lemma load_note_build_failure_witness :
  outcome (_load_note Faults.undiscovered "X") =
    Err (OtherError "UnknownApiNameOrVersion")
  ∧ trace (_load_note Faults.undiscovered "X") =
      [EvPathExists "service_account.json";
       EvFromServiceAccountFile "service_account.json" SCOPES;
       EvDiscoveryBuild "keep" "v1"]
  ∧ notes_requested (trace (_load_note Faults.undiscovered "X")) = [].
Proof.
  apply (load_note_build_failure Faults.undiscovered "X"
           {| cred_path := "service_account.json"; cred_scopes := SCOPES |}
           (OtherError "UnknownApiNameOrVersion")); reflexivity.
Defined.

(** X7. Every text [_load_note] returns has the one form: the response was a
    dict with a [str] title [T] and a [str] [B] at [body.text], and the text
    is ["Title: " + T + "\n" + "Body: " + B]. *)
Theorem load_note_returns_only (w : World) (note_id s : string) :
  outcome (_load_note w note_id) = Ok s →
  ∃ d b T B,
    responds w note_id (Ok (PDict d))
    ∧ d !! "title" = Some (PStr T)
    ∧ d !! "body" = Some (PDict b)
    ∧ b !! "text" = Some (PStr B)
    ∧ s = "Title: " +:+ T +:+ nl +:+ "Body: " +:+ B.
Proof.
  intros Hs.
  destruct (load_note_ok_inv w note_id s Hs) as (_ & note & Hresp & Hnote).
  destruct (note_content_of_inv note s Hnote)
    as (d & b & T & B & -> & Ht & Hb & Hx & ->).
  by exists d, b, T, B.
Qed.

Lemma load_note_returns_only_witness :
  ∃ d b T B,
    responds Examples.online "M" (Ok (PDict d))
    ∧ d !! "title" = Some (PStr T)
    ∧ d !! "body" = Some (PDict b)
    ∧ b !! "text" = Some (PStr B)
    ∧ "Title: Memo" +:+ nl +:+ "Body: Call back" =
        "Title: " +:+ T +:+ nl +:+ "Body: " +:+ B.
Proof.
  apply (load_note_returns_only Examples.online "M"
           ("Title: Memo" +:+ nl +:+ "Body: Call back")).
  reflexivity.
Defined.

(** X8. The text of a note starts with ["Title: "] and has as many lines as
    the title and the body have together: a line break in either adds a
    line. *)
Theorem load_note_line_count (w : World) (note_id : string)
    (d b : gmap string pyval) (T B : string) :
  responds w note_id (Ok (PDict d)) →
  d !! "title" = Some (PStr T) →
  d !! "body" = Some (PDict b) →
  b !! "text" = Some (PStr B) →
  ∃ txt, outcome (_load_note w note_id) = Ok txt
         ∧ String.prefix "Title: " txt = true
         ∧ length (split_lines txt) =
             length (split_lines T) + length (split_lines B).
Proof.
  intros Hresp Htitle Hbody Htext.
  exists ("Title: " +:+ T +:+ nl +:+ "Body: " +:+ B).
  split; [by apply load_note_plain with d b|].
  split; [apply prefix_append|].
  rewrite <- (append_assoc "Title: " T).
  rewrite split_lines_count.
  by rewrite !split_lines_lead_count.
Qed.

Lemma load_note_line_count_witness :
  ∃ txt, outcome (_load_note Examples.online "X") = Ok txt
         ∧ String.prefix "Title: " txt = true
         ∧ length (split_lines txt) =
             length (split_lines "Groceries")
             + length (split_lines ("Milk" +:+ nl +:+ "Eggs")).
Proof.
  apply (load_note_line_count Examples.online "X"
           {[ "title" := PStr "Groceries";
              "body" := PDict {[ "text" := PStr ("Milk" +:+ nl +:+ "Eggs") ]} ]}
           {[ "text" := PStr ("Milk" +:+ nl +:+ "Eggs") ]}
           "Groceries" ("Milk" +:+ nl +:+ "Eggs")).
  - exact (online_responds _).
  - reflexivity.
  - reflexivity.
  - reflexivity.
Defined.

(** X9. Among notes whose titles hold no line break, the text tells the note:
    two fetches that return the same text had the same title and the same
    body. *)
Theorem load_note_text_injective (w1 w2 : World) (id1 id2 : string)
    (d1 b1 d2 b2 : gmap string pyval) (T1 B1 T2 B2 : string) :
  responds w1 id1 (Ok (PDict d1)) →
  d1 !! "title" = Some (PStr T1) →
  d1 !! "body" = Some (PDict b1) →
  b1 !! "text" = Some (PStr B1) →
  responds w2 id2 (Ok (PDict d2)) →
  d2 !! "title" = Some (PStr T2) →
  d2 !! "body" = Some (PDict b2) →
  b2 !! "text" = Some (PStr B2) →
  has_newline T1 = false →
  has_newline T2 = false →
  outcome (_load_note w1 id1) = outcome (_load_note w2 id2) →
  T1 = T2 ∧ B1 = B2.
Proof.
  intros Hr1 Ht1 Hb1 Hx1 Hr2 Ht2 Hb2 Hx2 Hn1 Hn2.
  rewrite (load_note_plain w1 id1 d1 b1 T1 B1 Hr1 Ht1 Hb1 Hx1).
  rewrite (load_note_plain w2 id2 d2 b2 T2 B2 Hr2 Ht2 Hb2 Hx2).
  intros Hsame.
  assert ("Title: " +:+ T1 +:+ nl +:+ "Body: " +:+ B1 =
          "Title: " +:+ T2 +:+ nl +:+ "Body: " +:+ B2) as Heq by congruence.
  apply (inj (String.app "Title: ")) in Heq.
  destruct (append_nl_inj T1 T2 _ _ Hn1 Hn2 Heq) as [-> HB].
  by apply (inj (String.app "Body: ")) in HB as ->.
Qed.

Lemma load_note_text_injective_witness :
  "Memo" = "Memo" ∧ "Call back" = "Call back".
Proof.
  apply (load_note_text_injective Examples.online Faults.odd "M" "M"
           {[ "title" := PStr "Memo";
              "body" := PDict {[ "text" := PStr "Call back" ]} ]}
           {[ "text" := PStr "Call back" ]}
           {[ "title" := PStr "Memo";
              "body" := PDict {[ "text" := PStr "Call back" ]} ]}
           {[ "text" := PStr "Call back" ]}
           "Memo" "Call back" "Memo" "Call back").
  - exact (online_responds _).
  - reflexivity.
  - reflexivity.
  - reflexivity.
  - exact (odd_responds _).
  - reflexivity.
  - reflexivity.
  - reflexivity.
  - reflexivity.
  - reflexivity.
  - reflexivity.
Defined.

(** X10. A list can be loaded in pieces: when [load_data] returns [da] on
    [a], on [a ++ b] it makes the calls of the run on [a] followed by those of
    the run on [b], and ends as the run on [b] does, with [da] in front of
    what that run returns. *)
Theorem load_data_app (w : World) (a b : list string) (da : list Document) :
  outcome (load_data w (Some a)) = Ok da →
  load_data w (Some (a ++ b)%list) =
    ((trace (load_data w (Some a)) ++ trace (load_data w (Some b)))%list,
     match outcome (load_data w (Some b)) with
     | Ok db => Ok (da ++ db)%list
     | Err e => Err e
     end).
Proof.
  unfold load_data. intros Ha.
  destruct (load_data_loop w [] a) as [ta ra] eqn:Hrun.
  simpl in Ha. subst ra.
  rewrite (load_data_loop_app w a b [] da ta Hrun).
  by rewrite (load_data_loop_acc w da b).
Qed.

Lemma load_data_app_witness :
  load_data Examples.online (Some (["X"] ++ ["M"; "Y"])%list) =
    ((trace (load_data Examples.online (Some ["X"]))
      ++ trace (load_data Examples.online (Some ["M"; "Y"])))%list,
     match outcome (load_data Examples.online (Some ["M"; "Y"])) with
     | Ok db =>
         Ok ([{| text := "Title: Groceries" +:+ nl +:+ "Body: Milk" +:+ nl +:+ "Eggs";
                 extra_info := {["note_id" := "X"]} |}] ++ db)%list
     | Err e => Err e
     end).
Proof.
  apply (load_data_app Examples.online ["X"] ["M"; "Y"]).
  reflexivity.
Defined.

(** X11. [AttributeError] is what a fetch raises when the response is not a
    dict, and when it is one with a [str] title whose [body] is missing,
    [None] or anything else but a dict. *)
Theorem load_note_attribute_error (w : World) (note_id : string)
    (note : pyval) :
  responds w note_id (Ok note) →
  is_dict note = false
  ∨ (∃ d T, note = PDict d
            ∧ d !! "title" = Some (PStr T)
            ∧ is_dict (default PNone (d !! "body")) = false) →
  outcome (_load_note w note_id) = Err AttributeError.
Proof.
  intros Hresp Hshape. rewrite (load_note_run w note_id _ Hresp).
  unfold note_content_of. destruct Hshape as [Hnote|(d & T & -> & Ht & Hbody)].
  - by destruct note.
  - simpl. rewrite Ht. simpl.
    by destruct (default PNone (d !! "body")).
Qed.

Lemma load_note_attribute_error_witness :
  outcome (_load_note Faults.odd "B") = Err AttributeError.
Proof.
  apply (load_note_attribute_error Faults.odd "B" Faults.bodiless).
  - exact (odd_responds _).
  - right. exists {[ "title" := PStr "Memo" ]}, "Memo". repeat split; reflexivity.
Defined.

(** X12. [TypeError] is what a fetch raises when the response is a dict whose
    title is missing, [None] or anything else but a [str], and when title and
    body are in order and [body.text] is missing, [None] or anything else but
    a [str]. *)
Theorem load_note_type_error (w : World) (note_id : string)
    (d : gmap string pyval) :
  responds w note_id (Ok (PDict d)) →
  is_str (default PNone (d !! "title")) = false
  ∨ (∃ T b, d !! "title" = Some (PStr T)
            ∧ d !! "body" = Some (PDict b)
            ∧ is_str (default PNone (b !! "text")) = false) →
  outcome (_load_note w note_id) = Err TypeError.
Proof.
  intros Hresp Hshape. rewrite (load_note_run w note_id _ Hresp).
  unfold note_content_of. simpl. destruct Hshape as [Ht|(T & b & Ht & Hb & Hx)].
  - by destruct (default PNone (d !! "title")).
  - rewrite Ht, Hb. simpl. by destruct (default PNone (b !! "text")).
Qed.

Lemma load_note_type_error_witness :
  outcome (_load_note Faults.odd "N") = Err TypeError.
Proof.
  apply (load_note_type_error Faults.odd "N"
           {[ "title" := PStr "Memo"; "body" := PDict {[ "text" := PNone ]} ]}).
  - exact (odd_responds _).
  - right. exists "Memo", {[ "text" := PNone ]}. repeat split; reflexivity.
Defined.
